(** * Email Spam Score Checker: the React client

    A shallow embedding of the client sources
    ([frontend/src/types.ts], [frontend/src/App.tsx],
    [frontend/src/hooks/useHistory.ts]).  The analysis engine behind
    [/analyze] has no source in the repository snapshot; it appears here
    as the server that answers the requests of the client.

    Layout: JavaScript primitives, the data types of [types.ts], the
    component state and its effect monad, [useHistory], [App], the page as
    a run of events, and then the theorems. *)

From Stdlib Require Import ZArith NArith List String Ascii Lia Bool.
From Stdlib Require Import Floats.PrimFloat.
From stdpp Require Import base option list gmap.
From stdpp Require Import strings.

Set Warnings "-register-all".
Local Open Scope N_scope.

(** ** JavaScript strings

    A JavaScript string is a sequence of UTF-16 code units.  String
    literals of the sources are ASCII and are written with [js]. *)

Abbreviation jsstring := (list N).

Definition js (s : string) : jsstring :=
  map N_of_ascii (list_ascii_of_string s).

Definition LF : jsstring := [10].

(** ECMAScript [WhiteSpace]: TAB, VT, FF, SP, NBSP, ZWNBSP and the code
    points of category Zs. *)
Definition is_WhiteSpace (c : N) : bool :=
  (c =? 9) || (c =? 11) || (c =? 12) || (c =? 32) || (c =? 160)
  || (c =? 5760) || ((8192 <=? c) && (c <=? 8202))
  || (c =? 8239) || (c =? 8287) || (c =? 12288) || (c =? 65279).

(** ECMAScript [LineTerminator]: LF, CR, LS, PS. *)
Definition is_LineTerminator (c : N) : bool :=
  (c =? 10) || (c =? 13) || (c =? 8232) || (c =? 8233).

(** The code units [String.prototype.trim] strips. *)
Definition is_trimmable (c : N) : bool :=
  is_WhiteSpace c || is_LineTerminator c.

Fixpoint trimStart (s : jsstring) : jsstring :=
  match s with
  | [] => []
  | c :: rest => if is_trimmable c then trimStart rest else s
  end.

Definition trimEnd (s : jsstring) : jsstring :=
  rev (trimStart (rev s)).

(** [raw.trim()] *)
Definition trim (s : jsstring) : jsstring :=
  trimEnd (trimStart s).

(** ** The header pattern [/^[\w-]+:/m]

    [\w] without the [u] and [i] flags is [[A-Za-z0-9_]]. *)

Definition is_word_char (c : N) : bool :=
  ((65 <=? c) && (c <=? 90)) || ((97 <=? c) && (c <=? 122))
  || ((48 <=? c) && (c <=? 57)) || (c =? 95).

(** The class [[\w-]]. *)
Definition in_class (c : N) : bool :=
  is_word_char c || (c =? 45).

Definition colon : N := 58.

(** [[\w-]+:] matched at the head of [s]: one class character, and then
    either the colon or the rest of the repetition. *)
Fixpoint match_class_plus_colon (s : jsstring) : bool :=
  match s with
  | [] => false
  | c :: rest =>
      in_class c &&
      (match rest with
       | d :: _ => d =? colon
       | [] => false
       end || match_class_plus_colon rest)
  end.

(** The search loop of [RegExp.prototype.test]: every start index is tried
    in turn; with the [m] flag [^] holds at index 0 and after a line
    terminator ([bol] says whether it holds at the current index). *)
Fixpoint regex_search (bol : bool) (s : jsstring) : bool :=
  (bol && match_class_plus_colon s)
  || match s with
     | [] => false
     | c :: rest => regex_search (is_LineTerminator c) rest
     end.

(** [/^[\w-]+:/m.test(raw)] *)
Definition header_pattern_test (raw : jsstring) : bool :=
  regex_search true raw.

(** The lines of a string, split at every line terminator; the reading of
    "a line matches a [token:] pattern" that the pattern is compared with. *)
Fixpoint split_lines (s : jsstring) : list jsstring :=
  match s with
  | [] => [[]]
  | c :: rest =>
      if is_LineTerminator c then [] :: split_lines rest
      else match split_lines rest with
           | l :: ls => (c :: l) :: ls
           | [] => [[c]]
           end
  end.

(** A line that starts with a non-empty token of [[\w-]] characters
    followed by a colon. *)
Definition header_like (line : jsstring) : Prop :=
  exists tok rest,
    line = tok ++ colon :: rest /\ tok <> [] /\ Forall (fun c => in_class c = true) tok.

(** ** JavaScript values

    What an untyped position ([any]) can hold: the body of an error
    response, the argument of [setError]. *)

Inductive JsValue : Type :=
| JUndefined
| JNull
| JBool (b : bool)
| JNumber (x : float)
| JString (s : jsstring)
| JArray (items : list JsValue)
| JObject (fields : list (jsstring * JsValue)).

(** [ToBoolean] *)
Definition truthy (v : JsValue) : bool :=
  match v with
  | JUndefined | JNull => false
  | JBool b => b
  | JNumber x => negb (PrimFloat.eqb x 0%float || negb (PrimFloat.eqb x x))
  | JString s => match s with [] => false | _ => true end
  | JArray _ | JObject _ => true
  end.

(** [a || b] *)
Definition js_or (a b : JsValue) : JsValue :=
  if truthy a then a else b.

Fixpoint assoc (k : jsstring) (fields : list (jsstring * JsValue)) : option JsValue :=
  match fields with
  | [] => None
  | (k', v) :: rest => if bool_decide (k = k') then Some v else assoc k rest
  end.

(** [v?.k] for a key that no prototype defines: [undefined] on [null] and
    [undefined], the own property of an object, [undefined] elsewhere. *)
Definition optional_get (v : JsValue) (k : jsstring) : JsValue :=
  match v with
  | JObject fields => default JUndefined (assoc k fields)
  | _ => JUndefined
  end.

Local Close Scope N_scope.

(** ** The data types of [types.ts] *)

Inductive SpamCategory : Type := SAFE | SUSPICIOUS | LIKELY_SPAM.

Module RuleResult.
Record t : Type := mk { name : jsstring; points : Z; info : jsstring }.
End RuleResult.

Module AnalysisResponse.
Record headers_t : Type := mk_headers { spf : jsstring; dkim : jsstring; dmarc : jsstring }.
Record t : Type := mk {
  score : Z;
  category : SpamCategory;
  rules_triggered : list RuleResult.t;
  links : list jsstring;
  headers : headers_t
}.
End AnalysisResponse.

(** [type Mode = 'content' | 'headers'] *)
Inductive Mode : Type := content | headers.

#[global] Instance Mode_eq_dec : EqDecision Mode.
Proof. solve_decision. Defined.

Module HistoryEntry.
Record t : Type := mk {
  id : jsstring;
  timestamp : jsstring;
  category : SpamCategory;
  score : Z;
  inputType : Mode
}.
End HistoryEntry.

(** ** The component state, the browser and the effect monad *)

(** What a [catch] clause can receive: an [Error] (also its subclasses
    [SyntaxError], [TypeError]) or an [AxiosError], whose [response] is
    present when the server answered; of the response only [data] is read. *)
Inductive Exn : Type :=
| Error (message : jsstring)
| AxiosError (message : jsstring) (response : option JsValue).

Definition message_of (e : Exn) : jsstring :=
  match e with
  | Error m => m
  | AxiosError m _ => m
  end.

(** An HTTP request as [axios.post(url, body)] issues it. *)
Record Request : Type := mkRequest { url : jsstring; body : JsValue }.

(** How the promise of [axios.post<AnalysisResponse>] settles; the data of
    a fulfilled one is read at the type the call gives it. *)
Inductive PostOutcome : Type :=
| Fulfilled (data : AnalysisResponse.t)
| Rejected (err : Exn).

(** The state of [App] ([useState], the theme apart) and of [useHistory],
    and what the handlers touch of the browser: [localStorage], the calls
    of [console.error] and the requests sent, both oldest first.  [error]
    is declared [string | null]; [setError] is handed the [detail] of an
    untyped response body, so it holds a value. *)
Record World : Type := mkWorld {
  mode : Mode;
  raw : jsstring;
  loading : bool;
  error : JsValue;
  result : option AnalysisResponse.t;
  history : list HistoryEntry.t;
  localStorage : gmap (list N) (list N);
  console : list (jsstring * Exn);
  requests : list Request
}.

(** What one run of a handler reads from outside the state: the value of
    [crypto.randomUUID()] (present in a secure context), of
    [new Date().toISOString()], and the server. *)
Record Env : Type := mkEnv {
  randomUUID : jsstring;
  now_toISOString : jsstring;
  backend : Request -> PostOutcome
}.

(** Built-ins and build-time configuration the sources rely on.
    [JSON_parse] is [inl message] when [JSON.parse] throws a [SyntaxError];
    a value that parses is read at the type [setHistory] gives it.
    [storage_accepts] says whether the browser takes a write of a value
    under a key into a storage; when it does not, [setItem] throws. *)
Class Platform : Type := {
  JSON_stringify : list HistoryEntry.t -> jsstring;
  JSON_parse : jsstring -> jsstring + list HistoryEntry.t;
  storage_accepts : gmap (list N) (list N) -> jsstring -> jsstring -> bool;
  VITE_API_URL : option jsstring
}.

(** JavaScript completions: normal, [return], [throw]. *)
Inductive Completion (A : Type) : Type :=
| Normal (a : A)
| Return
| Throw (e : Exn).
Arguments Normal {A} a.
Arguments Return {A}.
Arguments Throw {A} e.

Definition M (A : Type) : Type := World -> Completion A * World.

#[global] Instance M_ret : MRet M := fun A a w => (Normal a, w).

#[global] Instance M_bind : MBind M := fun A B f m w =>
  match m w with
  | (Normal a, w') => f a w'
  | (Return, w') => (Return, w')
  | (Throw e, w') => (Throw e, w')
  end.

Definition return_ {A} : M A := fun w => (Return, w).
Definition throw {A} (e : Exn) : M A := fun w => (Throw e, w).

(** [if (b) { m }] *)
Definition when (b : bool) (m : M unit) : M unit :=
  if b then m else mret tt.

(** [try { body } catch (err) { handler }] *)
Definition try_catch {A} (body : M A) (handler : Exn -> M A) : M A := fun w =>
  match body w with
  | (Throw e, w') => handler e w'
  | r => r
  end.

(** [try { body } catch (err) { handler } finally { fin }]: [fin] runs
    whatever the completion, and overrides it only when abrupt itself. *)
Definition try_catch_finally {A} (body : M A) (handler : Exn -> M A) (fin : M unit) : M A := fun w =>
  let '(c, w') := try_catch body handler w in
  match fin w' with
  | (Normal _, w'') => (c, w'')
  | (Return, w'') => (Return, w'')
  | (Throw e, w'') => (Throw e, w'')
  end.

(** A call: [return] ends the body normally. *)
Definition call (body : M unit) : M unit := fun w =>
  match body w with
  | (Return, w') => (Normal tt, w')
  | r => r
  end.

(** The state setters. *)
Definition setLoading (b : bool) : M unit := fun w =>
  (Normal tt, mkWorld (mode w) (raw w) b (error w) (result w) (history w)
                      (localStorage w) (console w) (requests w)).
Definition setError (e : JsValue) : M unit := fun w =>
  (Normal tt, mkWorld (mode w) (raw w) (loading w) e (result w) (history w)
                      (localStorage w) (console w) (requests w)).
Definition setResult (r : option AnalysisResponse.t) : M unit := fun w =>
  (Normal tt, mkWorld (mode w) (raw w) (loading w) (error w) r (history w)
                      (localStorage w) (console w) (requests w)).
Definition setHistory (h : list HistoryEntry.t) : M unit := fun w =>
  (Normal tt, mkWorld (mode w) (raw w) (loading w) (error w) (result w) h
                      (localStorage w) (console w) (requests w)).

(** The browser. *)
Definition localStorage_getItem (k : jsstring) : M (option jsstring) := fun w =>
  (Normal (localStorage w !! k), w).
Definition localStorage_setItem `{Platform} (k v : jsstring) : M unit := fun w =>
  if storage_accepts (localStorage w) k v
  then (Normal tt, mkWorld (mode w) (raw w) (loading w) (error w) (result w) (history w)
                           (<[k := v]> (localStorage w)) (console w) (requests w))
  else (Throw (Error (js "QuotaExceededError")), w).
Definition console_error (msg : jsstring) (err : Exn) : M unit := fun w =>
  (Normal tt, mkWorld (mode w) (raw w) (loading w) (error w) (result w) (history w)
                      (localStorage w) (console w ++ [(msg, err)]) (requests w)).

(** [await axios.post(url, body)]: the request leaves, and the promise
    settles as the server decides. *)
Definition axios_post (env : Env) (u : jsstring) (b : JsValue) : M AnalysisResponse.t := fun w =>
  let req := mkRequest u b in
  let w' := mkWorld (mode w) (raw w) (loading w) (error w) (result w) (history w)
                    (localStorage w) (console w) (requests w ++ [req]) in
  match backend env req with
  | Fulfilled data => (Normal data, w')
  | Rejected err => (Throw err, w')
  end.

(** ** [hooks/useHistory.ts] *)

Definition STORAGE_KEY : jsstring := js "spam-checker-history".

Section UseHistory.
Context `{Platform}.

Definition JSON_parse_call (s : jsstring) : M (list HistoryEntry.t) :=
  match JSON_parse s with
  | inl msg => throw (Error msg)
  | inr v => mret v
  end.

(** The body of the [useEffect] of [useHistory], run once after mount. *)
Definition useHistory_effect : M unit :=
  stored ← localStorage_getItem STORAGE_KEY;
  match stored with
  | Some s =>
      when (truthy (JString s))
        (try_catch
           (v ← JSON_parse_call s; setHistory v)
           (fun err => console_error (js "Failed to parse history") err))
  | None => mret tt
  end.

(** [addEntry], as the render that saw [history] created it. *)
Definition addEntry (history : list HistoryEntry.t) (entry : HistoryEntry.t) : M unit :=
  let updated := take 20 (entry :: history) in
  setHistory updated;;
  localStorage_setItem STORAGE_KEY (JSON_stringify updated).
End UseHistory.

(** ** [App.tsx] *)

Definition samples : list (jsstring * jsstring) :=
  [ (js "spam1",
     js "From: winner@mailinator.com" ++ LF ++ js "Subject: WIN BIG NOW!!!" ++ LF ++ LF
     ++ js "Claim now for free money!!! Visit http://bit.ly/spammy");
    (js "spam2",
     js "From: promo@unknown-domain.biz" ++ LF ++ js "Subject: LIMITED OFFER" ++ LF ++ LF
     ++ js "Cheap meds available at http://cheap-meds.example");
    (js "spam3",
     js "From: fakebank@secure-alert.com" ++ LF ++ js "Subject: ACCOUNT LOCKED" ++ LF ++ LF
     ++ js "Click here to restore access: http://tinyurl.com/phish");
    (js "spam4",
     js "From: casino@vipgames.com" ++ LF ++ js "Subject: Casino BONUS" ++ LF ++ LF
     ++ js "Play now and win big!!!");
    (js "legit",
     js "From: support@trusted.com" ++ LF ++ js "Subject: Meeting Notes" ++ LF ++ LF
     ++ js "Hi team," ++ LF ++ js "Here are the meeting notes attached. Thanks!") ].

(** [samples.k] for a key of the table. *)
Definition sample (k : string) : jsstring :=
  match find (fun kv => bool_decide (fst kv = js k)) samples with
  | Some kv => snd kv
  | None => []
  end.

Section App.
Context `{Platform}.

(** [import.meta.env.VITE_API_URL || 'http://localhost:8000'] *)
Definition API_URL : jsstring :=
  match VITE_API_URL with
  | Some (c :: u) => c :: u
  | _ => js "http://localhost:8000"
  end.

(** [handleAnalyze], as the render that saw [mode], [raw] and the
    [addEntry] of that render created it. *)
Definition handleAnalyze (env : Env) (mode : Mode) (raw : jsstring)
    (addEntry : HistoryEntry.t -> M unit) : M unit :=
  setError JNull;;
  setResult None;;
  when (negb (truthy (JString (trim raw))))
    (setError (JString (js "Input cannot be empty"));;
     return_);;
  when (bool_decide (mode = headers))
    (try_catch
       (when (negb (header_pattern_test raw))
          (throw (Error (js "Invalid header format"))))
       (fun err =>
          setError (JString (message_of err));;
          return_));;
  setLoading true;;
  try_catch_finally
    (response_data ← axios_post env (API_URL ++ js "/analyze")
                       (JObject [(js "raw", JString raw)]);
     setResult (Some response_data);;
     addEntry (HistoryEntry.mk
                 (randomUUID env)
                 (now_toISOString env)
                 (AnalysisResponse.category response_data)
                 (AnalysisResponse.score response_data)
                 mode))
    (fun err =>
       match err with
       | AxiosError _ (Some data) =>
           setError (js_or (optional_get data (js "detail"))
                           (JString (js "Analysis failed")))
       | _ => setError (JString (js "Backend timeout or unreachable"))
       end)
    (setLoading false).

(** A click on "Check Spam Score": the handler of the current render. *)
Definition click_analyze (env : Env) : M unit := fun w =>
  call (handleAnalyze env (mode w) (raw w) (addEntry (history w))) w.

(** The first render and the effect that follows it. *)
Definition initial (storage : gmap (list N) (list N)) : World :=
  mkWorld content (sample "legit") false JNull None [] storage [] [].

Definition mount (storage : gmap (list N) (list N)) : Completion unit * World :=
  useHistory_effect (initial storage).
End App.

(** ** The guards of [handleAnalyze] and the keys of an object *)

(** The two guards in front of the request: the trimmed text is not empty,
    and in headers mode the header pattern accepts the text. *)
Definition accepted (m : Mode) (text : jsstring) : bool :=
  truthy (JString (trim text))
  && (if bool_decide (m = headers) then header_pattern_test text else true).

(** The request [handleAnalyze] posts for a text. *)
Definition analyze_request `{Platform} (text : jsstring) : Request :=
  mkRequest (API_URL ++ js "/analyze") (JObject [(js "raw", JString text)]).

(** The keys of a JSON object, in order. *)
Definition keys (v : JsValue) : list jsstring :=
  match v with
  | JObject fields => fst <$> fields
  | _ => []
  end.

Arguments js : simpl never.
Arguments trim : simpl never.
Arguments header_pattern_test : simpl never.
Arguments sample : simpl never.
Arguments API_URL : simpl never.
Arguments take : simpl never.

(** ** Concrete instances

    A platform and servers to evaluate the definitions on. *)

(** A platform to evaluate on.  Its [JSON.stringify] tells the empty list
    from the others and nothing more; its [JSON.parse] knows the empty
    array only and rejects every other text, the way [JSON.parse] rejects
    text that is not JSON; its storage takes every write. *)
#[local] Instance sample_platform : Platform := {
  JSON_stringify h := match h with [] => js "[]" | _ => js "[...]" end;
  JSON_parse s := if bool_decide (s = js "[]") then inr [] else inl (js "Unexpected token");
  storage_accepts _ _ _ := true;
  VITE_API_URL := None
}.

(** The same platform with a storage that takes no write. *)
Definition full_storage_platform : Platform := {|
  JSON_stringify := JSON_stringify (Platform := sample_platform);
  JSON_parse := JSON_parse (Platform := sample_platform);
  storage_accepts _ _ _ := false;
  VITE_API_URL := None
|}.

(** The output the README documents for the [spam1] sample. *)
Definition spam1_documented_rules : list RuleResult.t :=
  [ RuleResult.mk (js "SPAM_KEYWORDS") 14 (js "Found suspicious terms: free money");
    RuleResult.mk (js "EXCESSIVE_PUNCTUATION") 15 (js "Found 6 exclamation marks");
    RuleResult.mk (js "NO_DKIM") 15 (js "Missing DKIM signature") ].

Definition spam1_documented : AnalysisResponse.t :=
  AnalysisResponse.mk 72 LIKELY_SPAM spam1_documented_rules
    [js "http://bit.ly/spammy"]
    (AnalysisResponse.mk_headers (js "fail") (js "missing") (js "pass")).

(** A server that answers every request with the documented output. *)
Definition documented_env : Env :=
  mkEnv (js "3f0c1a52-9d1e-4c7b-8a57-0b6f2d9e4c11") (js "2024-01-01T00:00:00.000Z")
        (fun _ => Fulfilled spam1_documented).

(** A server that answers every request with an error response whose body
    is [data], and one that is not reachable. *)
Definition failing_env (data : JsValue) : Env :=
  mkEnv (js "3f0c1a52-9d1e-4c7b-8a57-0b6f2d9e4c11") (js "2024-01-01T00:00:00.000Z")
        (fun _ => Rejected (AxiosError (js "Request failed with status code 400") (Some data))).

Definition unreachable_env : Env :=
  mkEnv (js "3f0c1a52-9d1e-4c7b-8a57-0b6f2d9e4c11") (js "2024-01-01T00:00:00.000Z")
        (fun _ => Rejected (AxiosError (js "Network Error") None)).

(** The state after the first render, with [raw] and [mode] as the user
    set them. *)
Definition typed (m : Mode) (text : jsstring) : World :=
  mkWorld m text false JNull None [] ∅ [] [].

(** ** [handleAnalyze] around its [await]

    An [async] function runs up to its first [await] inside the click; the
    rest runs when the promise settles, with the variables of the render
    that created the handler.  In between the user can go on typing and
    switching mode; the button is [disabled] while [loading]. *)

Definition setMode (m : Mode) : M unit := fun w =>
  (Normal tt, mkWorld m (raw w) (loading w) (error w) (result w) (history w)
                      (localStorage w) (console w) (requests w)).
Definition setRaw (text : jsstring) : M unit := fun w =>
  (Normal tt, mkWorld (mode w) text (loading w) (error w) (result w) (history w)
                      (localStorage w) (console w) (requests w)).

(** The call [axios.post(url, body)]: the request leaves. *)
Definition axios_post_send (u : jsstring) (b : JsValue) : M unit := fun w =>
  (Normal tt, mkWorld (mode w) (raw w) (loading w) (error w) (result w) (history w)
                      (localStorage w) (console w) (requests w ++ [mkRequest u b])).

(** The [await] on its promise, once it has settled. *)
Definition await_post (settled : PostOutcome) : M AnalysisResponse.t := fun w =>
  match settled with
  | Fulfilled data => (Normal data, w)
  | Rejected err => (Throw err, w)
  end.

Section AppAsync.
Context `{Platform}.

(** [handleAnalyze] up to the [await]. *)
Definition handleAnalyze_until_await (mode : Mode) (raw : jsstring) : M unit :=
  setError JNull;;
  setResult None;;
  when (negb (truthy (JString (trim raw))))
    (setError (JString (js "Input cannot be empty"));;
     return_);;
  when (bool_decide (mode = headers))
    (try_catch
       (when (negb (header_pattern_test raw))
          (throw (Error (js "Invalid header format"))))
       (fun err =>
          setError (JString (message_of err));;
          return_));;
  setLoading true;;
  axios_post_send (API_URL ++ js "/analyze") (JObject [(js "raw", JString raw)]).

(** [handleAnalyze] from the [await] on. *)
Definition handleAnalyze_after_await (env : Env) (mode : Mode)
    (addEntry : HistoryEntry.t -> M unit) (settled : PostOutcome) : M unit :=
  try_catch_finally
    (response_data ← await_post settled;
     setResult (Some response_data);;
     addEntry (HistoryEntry.mk
                 (randomUUID env)
                 (now_toISOString env)
                 (AnalysisResponse.category response_data)
                 (AnalysisResponse.score response_data)
                 mode))
    (fun err =>
       match err with
       | AxiosError _ (Some data) =>
           setError (js_or (optional_get data (js "detail"))
                           (JString (js "Analysis failed")))
       | _ => setError (JString (js "Backend timeout or unreachable"))
       end)
    (setLoading false).

(** What a suspended run of [handleAnalyze] holds on to: the [mode] and,
    through [addEntry], the [history] of the render that was clicked, and
    the request it sent. *)
Record Pending : Type := mkPending {
  click_mode : Mode;
  click_history : list HistoryEntry.t;
  click_request : Request
}.

(** The page: the state and the run of [handleAnalyze] in flight, if any. *)
Record Session : Type := mkSession { world : World; in_flight : option Pending }.

(** What happens to the page: a click on "Check Spam Score", the promise
    of the request in flight settling, a click on a mode button, and a new
    text (typed in the textarea or set by a sample button). *)
Inductive Event : Type :=
| ClickAnalyze
| Settle (env : Env)
| ClickMode (m : Mode)
| ChangeRaw (text : jsstring).

(** One event.  The button is [disabled={loading}]: a click on it while
    [loading] does nothing.  A settlement with nothing in flight does not
    occur and is taken to do nothing. *)
Definition step (s : Session) (e : Event) : Session :=
  match e with
  | ClickAnalyze =>
      if loading (world s) then s
      else match handleAnalyze_until_await (mode (world s)) (raw (world s)) (world s) with
           | (Normal _, w') =>
               mkSession w' (Some (mkPending (mode (world s)) (history (world s))
                                     (analyze_request (raw (world s)))))
           | (_, w') => mkSession w' (in_flight s)
           end
  | Settle env =>
      match in_flight s with
      | Some p =>
          mkSession
            (snd (call (handleAnalyze_after_await env (click_mode p)
                          (addEntry (click_history p))
                          (backend env (click_request p))) (world s)))
            None
      | None => s
      end
  | ClickMode m => mkSession (snd (setMode m (world s))) (in_flight s)
  | ChangeRaw text => mkSession (snd (setRaw text (world s))) (in_flight s)
  end.

Definition run (events : list Event) (s : Session) : Session :=
  foldl step s events.

(** The events that are not a settlement. *)
Definition is_settlement (e : Event) : bool :=
  match e with
  | Settle _ => true
  | _ => false
  end.
End AppAsync.

(** ** The theme of [App]

    [useState<'light' | 'dark'>('light')], the effect that mirrors the
    theme in the class list of the root element, and the toggle button. *)

Inductive Theme : Type := light | dark.

#[global] Instance Theme_eq_dec : EqDecision Theme.
Proof. solve_decision. Defined.

(** [classList.toggle(token, force)] *)
Definition classList_toggle (token : jsstring) (force : bool)
    (classes : gset (list N)) : gset (list N) :=
  if force then classes ∪ {[ token ]} else classes ∖ {[ token ]}.

(** The effect on [theme]:
    [document.documentElement.classList.toggle('dark', theme === 'dark')]. *)
Definition theme_effect (theme : Theme) (classes : gset (list N)) : gset (list N) :=
  classList_toggle (js "dark") (bool_decide (theme = dark)) classes.

(** The button: [setTheme(theme === 'light' ? 'dark' : 'light')]. *)
Definition toggle_theme (theme : Theme) : Theme :=
  if bool_decide (theme = light) then dark else light.

(** The first render with its effect, and a click on the button with the
    render and the effect that follow (the theme changes at every click,
    so the effect runs). *)
Definition theme_mount (classes : gset (list N)) : Theme * gset (list N) :=
  (light, theme_effect light classes).

Definition theme_click (page : Theme * gset (list N)) : Theme * gset (list N) :=
  (toggle_theme (fst page), theme_effect (toggle_theme (fst page)) (snd page)).

(** ** A platform with a codec

    A [JSON.stringify] and a [JSON.parse] for history lists whose ids and
    timestamps need no escape (no quotation mark, no backslash, no control
    character): the JSON text of the list, and a reader of that text. *)

Definition quotation_mark : N := 34.

Definition json_string (s : jsstring) : jsstring :=
  quotation_mark :: s ++ [quotation_mark].

Definition category_text (c : SpamCategory) : jsstring :=
  match c with
  | SAFE => js "SAFE"
  | SUSPICIOUS => js "SUSPICIOUS"
  | LIKELY_SPAM => js "LIKELY_SPAM"
  end.

Definition mode_text (m : Mode) : jsstring :=
  match m with
  | content => js "content"
  | headers => js "headers"
  end.

Fixpoint decimal_digits (fuel : nat) (n : N) (acc : jsstring) : jsstring :=
  match fuel with
  | O => acc
  | S fuel' =>
      let acc' := (48 + n mod 10)%N :: acc in
      if (n / 10 =? 0)%N then acc' else decimal_digits fuel' (n / 10)%N acc'
  end.

Definition decimal (z : Z) : jsstring :=
  let n := Z.abs_N z in
  let digits := decimal_digits (S (N.to_nat (N.log2 n))) n [] in
  if (z <? 0)%Z then 45%N :: digits else digits.

Definition entry_text (e : HistoryEntry.t) : jsstring :=
  js "{" ++ json_string (js "id") ++ js ":" ++ json_string (HistoryEntry.id e)
  ++ js "," ++ json_string (js "timestamp") ++ js ":" ++ json_string (HistoryEntry.timestamp e)
  ++ js "," ++ json_string (js "category") ++ js ":"
  ++ json_string (category_text (HistoryEntry.category e))
  ++ js "," ++ json_string (js "score") ++ js ":" ++ decimal (HistoryEntry.score e)
  ++ js "," ++ json_string (js "inputType") ++ js ":"
  ++ json_string (mode_text (HistoryEntry.inputType e))
  ++ js "}".

Fixpoint join_comma (parts : list jsstring) : jsstring :=
  match parts with
  | [] => []
  | [p] => p
  | p :: rest => p ++ js "," ++ join_comma rest
  end.

Definition history_text (h : list HistoryEntry.t) : jsstring :=
  js "[" ++ join_comma (entry_text <$> h) ++ js "]".

(** The reader: each step takes the text left and gives what it read and
    the rest. *)
Definition expect (l s : jsstring) : option jsstring :=
  if bool_decide (take (length l) s = l) then Some (drop (length l) s) else None.

Fixpoint read_quoted (s : jsstring) : option (jsstring * jsstring) :=
  match s with
  | [] => None
  | c :: rest =>
      if (c =? quotation_mark)%N then Some ([], rest)
      else if ((c =? 92) || (c <? 32))%N then None
      else match read_quoted rest with
           | Some (t, rest') => Some (c :: t, rest')
           | None => None
           end
  end.

Definition read_string (s : jsstring) : option (jsstring * jsstring) :=
  rest ← expect [quotation_mark] s; read_quoted rest.

Definition is_digit (c : N) : bool := ((48 <=? c) && (c <=? 57))%N.

Fixpoint read_digits (s : jsstring) (acc : N) : N * jsstring :=
  match s with
  | c :: rest => if is_digit c then read_digits rest (10 * acc + (c - 48))%N else (acc, s)
  | [] => (acc, [])
  end.

Definition read_natural (s : jsstring) : option (N * jsstring) :=
  match s with
  | c :: _ => if is_digit c then Some (read_digits s 0%N) else None
  | [] => None
  end.

Definition read_integer (s : jsstring) : option (Z * jsstring) :=
  match expect [45%N] s with
  | Some rest => '(n, rest') ← read_natural rest; Some ((- Z.of_N n)%Z, rest')
  | None => '(n, rest') ← read_natural s; Some (Z.of_N n, rest')
  end.

Definition read_category (s : jsstring) : option (SpamCategory * jsstring) :=
  '(t, rest) ← read_string s;
  c ← find (fun c => bool_decide (category_text c = t)) [SAFE; SUSPICIOUS; LIKELY_SPAM];
  Some (c, rest).

Definition read_mode (s : jsstring) : option (Mode * jsstring) :=
  '(t, rest) ← read_string s;
  m ← find (fun m => bool_decide (mode_text m = t)) [content; headers];
  Some (m, rest).

Definition expect_key (k : string) (s : jsstring) : option jsstring :=
  expect (json_string (js k) ++ js ":") s.

Definition read_entry (s : jsstring) : option (HistoryEntry.t * jsstring) :=
  s ← expect (js "{") s;
  s ← expect_key "id" s; '(i, s) ← read_string s; s ← expect (js ",") s;
  s ← expect_key "timestamp" s; '(t, s) ← read_string s; s ← expect (js ",") s;
  s ← expect_key "category" s; '(c, s) ← read_category s; s ← expect (js ",") s;
  s ← expect_key "score" s; '(n, s) ← read_integer s; s ← expect (js ",") s;
  s ← expect_key "inputType" s; '(m, s) ← read_mode s;
  s ← expect (js "}") s;
  Some (HistoryEntry.mk i t c n m, s).

Fixpoint read_entries (fuel : nat) (s : jsstring) : option (list HistoryEntry.t * jsstring) :=
  match fuel with
  | O => None
  | S fuel' =>
      '(e, rest) ← read_entry s;
      match expect (js ",") rest with
      | Some rest' => '(es, rest'') ← read_entries fuel' rest'; Some (e :: es, rest'')
      | None => Some ([e], rest)
      end
  end.

Definition history_parse (s : jsstring) : jsstring + list HistoryEntry.t :=
  match expect (js "[") s with
  | Some rest =>
      if bool_decide (rest = js "]") then inr []
      else match read_entries (length s) rest with
           | Some (es, rest') =>
               if bool_decide (rest' = js "]") then inr es
               else inl (js "Unexpected token")
           | None => inl (js "Unexpected token")
           end
  | None => inl (js "Unexpected token")
  end.

Definition codec_platform : Platform := {|
  JSON_stringify := history_text;
  JSON_parse := history_parse;
  storage_accepts _ _ _ := true;
  VITE_API_URL := None
|}.

(** Two entries and a state that holds them, to evaluate on. *)
Definition entry_a : HistoryEntry.t :=
  HistoryEntry.mk (js "0b6f2d9e-9d1e-4c7b-8a57-3f0c1a524c11") (js "2024-01-01T00:00:00.000Z")
                  SAFE 12 content.

Definition entry_b : HistoryEntry.t :=
  HistoryEntry.mk (js "9d1e4c7b-3f0c-4a52-8a57-0b6f2d9e4c11") (js "2024-01-02T08:30:00.000Z")
                  LIKELY_SPAM 72 headers.

(** * Theorems *)

(** ** Characters, [trim] and the header pattern *)

Lemma LineTerminator_cases c :
  is_LineTerminator c = true -> c = 10%N \/ c = 13%N \/ c = 8232%N \/ c = 8233%N.
Proof.
  unfold is_LineTerminator. rewrite !orb_true_iff, !N.eqb_eq. tauto.
Qed.

Lemma LineTerminator_not_in_class c :
  is_LineTerminator c = true -> in_class c = false.
Proof.
  intros Hc. destruct (LineTerminator_cases c Hc) as [-> | [-> | [-> | ->]]]; reflexivity.
Qed.

Lemma LineTerminator_not_colon c :
  is_LineTerminator c = true -> (c =? colon)%N = false.
Proof.
  intros Hc. destruct (LineTerminator_cases c Hc) as [-> | [-> | [-> | ->]]]; reflexivity.
Qed.

Lemma trimStart_blank s :
  Forall (fun c => is_trimmable c = true) s -> trimStart s = [].
Proof.
  induction 1 as [| c s Hc _ IH]; simpl; [reflexivity |]. now rewrite Hc.
Qed.

Lemma trimStart_nil_inv s :
  trimStart s = [] -> Forall (fun c => is_trimmable c = true) s.
Proof.
  induction s as [| c s IH]; simpl; [constructor |].
  destruct (is_trimmable c) eqn:Hc; [| discriminate].
  intros Hs. constructor; auto.
Qed.

Lemma trim_blank_iff s :
  trim s = [] <-> Forall (fun c => is_trimmable c = true) s.
Proof.
  unfold trim, trimEnd. split.
  - intros Hs. apply (f_equal (@rev N)) in Hs. rewrite rev_involutive in Hs. simpl in Hs.
    apply trimStart_nil_inv in Hs. apply Forall_rev in Hs. rewrite rev_involutive in Hs.
    apply trimStart_nil_inv. destruct s as [| c s]; simpl in *; [reflexivity |].
    destruct (is_trimmable c) eqn:Hc; [| exfalso].
    + destruct (trimStart s) as [| d t] eqn:Ht; [reflexivity |].
      exfalso. clear -Hs Ht.
      assert (Hd : is_trimmable d = false).
      { revert Ht. induction s as [| e s IH]; simpl; [discriminate |].
        destruct (is_trimmable e) eqn:He; [exact IH |]. congruence. }
      inversion Hs; congruence.
    + inversion Hs; congruence.
  - intros Hs. now rewrite (trimStart_blank s Hs).
Qed.

Lemma split_lines_nonempty s : split_lines s <> [].
Proof.
  destruct s as [| c s]; simpl; [discriminate |].
  destruct (is_LineTerminator c); [discriminate |].
  destruct (split_lines s); discriminate.
Qed.

Lemma match_class_plus_colon_header_like s :
  match_class_plus_colon s = true <-> header_like s.
Proof.
  split.
  - induction s as [| c s IH]; simpl; [discriminate |].
    rewrite andb_true_iff, orb_true_iff. intros [Hc [Hcolon | Hrest]].
    + destruct s as [| d s]; [discriminate |]. apply N.eqb_eq in Hcolon. subst d.
      exists [c], s. repeat split; [discriminate | repeat constructor; exact Hc].
    + destruct (IH Hrest) as (tok & rest & -> & _ & Htok).
      exists (c :: tok), rest. repeat split; [discriminate | constructor; assumption].
  - intros (tok & rest & -> & Hne & Htok).
    induction Htok as [| c tok Hc Htok IH]; [congruence |].
    simpl. rewrite Hc. simpl. destruct tok as [| d tok].
    + reflexivity.
    + rewrite IH by discriminate. apply orb_true_r.
Qed.

Lemma match_class_plus_colon_first_line s :
  match_class_plus_colon s = match_class_plus_colon (hd [] (split_lines s)).
Proof.
  induction s as [| c s IH]; [reflexivity |].
  cbn [split_lines]. destruct (is_LineTerminator c) eqn:Hc.
  - cbn. now rewrite (LineTerminator_not_in_class c Hc).
  - pose proof (split_lines_nonempty s) as Hne.
    destruct (split_lines s) as [| l ls] eqn:Hs; [congruence |].
    cbn [hd match_class_plus_colon] in *. rewrite IH. f_equal. f_equal.
    destruct s as [| d s]; cbn [split_lines] in Hs.
    + now inversion Hs.
    + destruct (is_LineTerminator d) eqn:Hd.
      * inversion Hs; subst. apply (LineTerminator_not_colon d Hd).
      * destruct (split_lines s); inversion Hs; reflexivity.
Qed.

Lemma regex_search_lines bol s :
  regex_search bol s =
  (bol && match_class_plus_colon (hd [] (split_lines s)))
  || existsb match_class_plus_colon (tl (split_lines s)).
Proof.
  revert bol. induction s as [| c s IH]; intros bol.
  - cbn. now rewrite andb_false_r.
  - cbn [regex_search]. rewrite IH, (match_class_plus_colon_first_line (c :: s)).
    cbn [split_lines]. destruct (is_LineTerminator c) eqn:Hc.
    + cbn [hd tl]. pose proof (split_lines_nonempty s) as Hne.
      destruct (split_lines s) as [| l ls]; [congruence |].
      cbn. now rewrite andb_false_r.
    + pose proof (split_lines_nonempty s) as Hne.
      destruct (split_lines s) as [| l ls]; [congruence |]. reflexivity.
Qed.

(** The pattern [/^[\w-]+:/m] accepts a text exactly when one of its lines
    starts with a non-empty [[\w-]] token and a colon. *)
Lemma header_pattern_test_lines raw :
  header_pattern_test raw = true <-> Exists header_like (split_lines raw).
Proof.
  unfold header_pattern_test. rewrite regex_search_lines.
  pose proof (split_lines_nonempty raw) as Hne.
  destruct (split_lines raw) as [| l ls]; [congruence |].
  cbn [hd tl andb]. rewrite Exists_cons, orb_true_iff, match_class_plus_colon_header_like.
  apply or_iff_compat_l. rewrite existsb_exists, Exists_exists.
  split; intros (x & Hin & Hx); exists x; (split; [| now apply match_class_plus_colon_header_like]).
  - now apply list_elem_of_In.
  - now apply list_elem_of_In.
Qed.

(** ** Evaluations *)

Example trim_strips_both_ends :
  trim (js "  " ++ LF ++ js "From: a@b.c " ++ [160; 8232; 65279]%N) = js "From: a@b.c".
Proof. reflexivity. Qed.

Example trim_keeps_inner_space : trim (js " a b ") = js "a b".
Proof. reflexivity. Qed.

Example pattern_accepts_samples :
  forallb (fun kv => header_pattern_test (snd kv)) samples = true.
Proof. reflexivity. Qed.

Example pattern_accepts_later_line :
  header_pattern_test (js "hello" ++ [13; 10]%N ++ js "X-Spam_Flag-1:yes") = true.
Proof. reflexivity. Qed.

Example pattern_rejects_indented_header : header_pattern_test (js " From: a@b.c") = false.
Proof. reflexivity. Qed.

Example pattern_rejects_bare_colon : header_pattern_test (js ": no token") = false.
Proof. reflexivity. Qed.

Example pattern_rejects_space_before_colon : header_pattern_test (js "From : a@b.c") = false.
Proof. reflexivity. Qed.

Example split_lines_spam1 :
  split_lines (sample "spam1") =
  [ js "From: winner@mailinator.com"; js "Subject: WIN BIG NOW!!!"; [];
    js "Claim now for free money!!! Visit http://bit.ly/spammy" ].
Proof. reflexivity. Qed.

Example truthy_values :
  map truthy [JUndefined; JNull; JBool false; JNumber 0%float; JNumber nan; JString [];
              JString (js "0"); JNumber 1%float; JArray []; JObject []] =
  [false; false; false; false; false; false; true; true; true; true].
Proof. reflexivity. Qed.

Example detail_of_bodies :
  map (fun data => optional_get data (js "detail"))
      [ JUndefined; JNull; JString (js "Bad Gateway"); JObject [];
        JObject [(js "detail", JString (js "Input cannot be empty"))] ] =
  [ JUndefined; JUndefined; JUndefined; JUndefined; JString (js "Input cannot be empty") ].
Proof. reflexivity. Qed.

Example unreachable_backend :
  error (snd (click_analyze unreachable_env (typed content (sample "legit")))) =
  JString (js "Backend timeout or unreachable").
Proof. reflexivity. Qed.

(** A successful analysis in a browser that refuses the write: the result
    is shown, the entry is in the history, nothing is stored, and the
    click ends with the message of the last [catch] branch. *)
Example refused_write_after_success :
  click_analyze (H := full_storage_platform) documented_env (typed content (sample "spam1")) =
  (Normal tt,
   mkWorld content (sample "spam1") false (JString (js "Backend timeout or unreachable"))
           (Some spam1_documented)
           [HistoryEntry.mk (js "3f0c1a52-9d1e-4c7b-8a57-0b6f2d9e4c11")
              (js "2024-01-01T00:00:00.000Z") LIKELY_SPAM 72 content]
           ∅ []
           [mkRequest (js "http://localhost:8000/analyze")
              (JObject [(js "raw", JString (sample "spam1"))])]).
Proof. reflexivity. Qed.

(** ** [handleAnalyze]: the guards *)

Ltac run_handler :=
  unfold click_analyze, call, handleAnalyze, addEntry, axios_post, try_catch_finally,
    try_catch, when, return_, throw, setError, setResult, setLoading, setHistory,
    localStorage_setItem, mbind, M_bind, mret, M_ret.

Lemma truthy_trim_false text :
  Forall (fun c => is_trimmable c = true) text -> truthy (JString (trim text)) = false.
Proof.
  intros Hblank. apply trim_blank_iff in Hblank. now rewrite Hblank.
Qed.

Lemma click_analyze_blank `{Platform} (env : Env) (w : World) :
  truthy (JString (trim (raw w))) = false ->
  click_analyze env w =
  (Normal tt,
   mkWorld (mode w) (raw w) (loading w) (JString (js "Input cannot be empty")) None
           (history w) (localStorage w) (console w) (requests w)).
Proof.
  intros Hblank. run_handler. now rewrite Hblank.
Qed.

Lemma click_analyze_bad_headers `{Platform} (env : Env) (w : World) :
  truthy (JString (trim (raw w))) = true ->
  mode w = headers ->
  header_pattern_test (raw w) = false ->
  click_analyze env w =
  (Normal tt,
   mkWorld (mode w) (raw w) (loading w) (JString (js "Invalid header format")) None
           (history w) (localStorage w) (console w) (requests w)).
Proof.
  intros Htext Hmode Hpat. run_handler. now rewrite Htext, Hmode, Hpat.
Qed.

(** C2. Empty or whitespace-only text: the click ends with the validation
    message in [error], no result, no request sent, and the history and
    [localStorage] as they were. *)
Theorem blank_input_is_rejected `{Platform} (env : Env) (w : World) :
  Forall (fun c => is_trimmable c = true) (raw w) ->
  click_analyze env w =
  (Normal tt,
   mkWorld (mode w) (raw w) (loading w) (JString (js "Input cannot be empty")) None
           (history w) (localStorage w) (console w) (requests w)).
Proof.
  intros Hblank. apply click_analyze_blank. now apply truthy_trim_false.
Qed.

Lemma blank_input_is_rejected_witness :
  click_analyze documented_env (typed content (js "  " ++ LF ++ js "  ")) =
  (Normal tt,
   mkWorld content (js "  " ++ LF ++ js "  ") false (JString (js "Input cannot be empty")) None
           [] ∅ [] []).
Proof.
  apply (blank_input_is_rejected documented_env (typed content (js "  " ++ LF ++ js "  "))).
  repeat constructor.
Defined.

(** C3. Headers mode and no line of the text starts with [token:]: the
    click ends with a validation message in [error] (the empty-input one
    when the text is blank, the header one otherwise), no result, no
    request sent, and the history and [localStorage] as they were. *)
Theorem headers_without_header_line_is_rejected `{Platform} (env : Env) (w : World) :
  mode w = headers ->
  ~ Exists header_like (split_lines (raw w)) ->
  click_analyze env w =
  (Normal tt,
   mkWorld (mode w) (raw w) (loading w)
           (JString (if truthy (JString (trim (raw w)))
                     then js "Invalid header format"
                     else js "Input cannot be empty"))
           None (history w) (localStorage w) (console w) (requests w)).
Proof.
  intros Hmode Hlines.
  destruct (truthy (JString (trim (raw w)))) eqn:Htext.
  - apply click_analyze_bad_headers; [assumption | assumption |].
    destruct (header_pattern_test (raw w)) eqn:Hpat; [| reflexivity].
    exfalso. apply Hlines. now apply header_pattern_test_lines.
  - now apply click_analyze_blank.
Qed.

Lemma headers_without_header_line_is_rejected_witness :
  click_analyze documented_env (typed headers (js "Hi team," ++ LF ++ js "Here are the meeting notes attached. Thanks!")) =
  (Normal tt,
   mkWorld headers (js "Hi team," ++ LF ++ js "Here are the meeting notes attached. Thanks!") false
           (JString (js "Invalid header format")) None [] ∅ [] []).
Proof.
  apply (headers_without_header_line_is_rejected documented_env
           (typed headers (js "Hi team," ++ LF ++ js "Here are the meeting notes attached. Thanks!"))).
  - reflexivity.
  - intros Hlines. apply header_pattern_test_lines in Hlines. vm_compute in Hlines. discriminate.
Defined.

(** ** [handleAnalyze]: the request and its two outcomes *)

(** Past the guards, one request leaves and the click ends as the server
    answers: with the result shown and an entry added, or with a message
    in [error]; [loading] is reset either way. *)
Lemma click_analyze_accepted `{Platform} (env : Env) (w : World) :
  accepted (mode w) (raw w) = true ->
  click_analyze env w =
  match backend env (analyze_request (raw w)) with
  | Fulfilled data =>
      let updated :=
        take 20 (HistoryEntry.mk (randomUUID env) (now_toISOString env)
                   (AnalysisResponse.category data) (AnalysisResponse.score data) (mode w)
                 :: history w) in
      if storage_accepts (localStorage w) STORAGE_KEY (JSON_stringify updated)
      then (Normal tt,
            mkWorld (mode w) (raw w) false JNull (Some data) updated
                    (<[STORAGE_KEY := JSON_stringify updated]> (localStorage w))
                    (console w) (requests w ++ [analyze_request (raw w)]))
      else (Normal tt,
            mkWorld (mode w) (raw w) false (JString (js "Backend timeout or unreachable"))
                    (Some data) updated (localStorage w)
                    (console w) (requests w ++ [analyze_request (raw w)]))
  | Rejected err =>
      (Normal tt,
       mkWorld (mode w) (raw w) false
               (match err with
                | AxiosError _ (Some data) =>
                    js_or (optional_get data (js "detail")) (JString (js "Analysis failed"))
                | _ => JString (js "Backend timeout or unreachable")
                end)
               None (history w) (localStorage w)
               (console w) (requests w ++ [analyze_request (raw w)]))
  end.
Proof.
  unfold accepted. rewrite andb_true_iff. intros [Htext Hguard].
  run_handler. unfold analyze_request. rewrite Htext. cbn.
  destruct (bool_decide (mode w = headers)); [rewrite Hguard |]; cbn;
    (destruct (backend env _) as [data | [m | m [data |]]]; try reflexivity;
     cbn; destruct (storage_accepts _ _ _); reflexivity).
Qed.

Lemma click_analyze_not_accepted `{Platform} (env : Env) (w : World) :
  accepted (mode w) (raw w) = false ->
  requests (snd (click_analyze env w)) = requests w.
Proof.
  unfold accepted. intros Hguards.
  destruct (truthy (JString (trim (raw w)))) eqn:Htext.
  - destruct (bool_decide (mode w = headers)) eqn:Hmode; [| discriminate].
    apply bool_decide_eq_true in Hmode.
    now rewrite (click_analyze_bad_headers env w Htext Hmode Hguards).
  - now rewrite (click_analyze_blank env w Htext).
Qed.

(** C1, as the client has it. A click sends at most one request: none when
    a guard rejects the text, and otherwise one, to [API_URL/analyze],
    whose body is the object with the single field [raw]; the mode is not
    part of it. *)
Theorem analyze_request_carries_raw_only `{Platform} (env : Env) (w : World) :
  requests (snd (click_analyze env w)) =
  requests w ++
    (if accepted (mode w) (raw w)
     then [mkRequest (API_URL ++ js "/analyze") (JObject [(js "raw", JString (raw w))])]
     else [])
  /\ keys (body (analyze_request (raw w))) = [js "raw"]
  /\ optional_get (body (analyze_request (raw w))) (js "mode") = JUndefined.
Proof.
  split; [| split; reflexivity].
  destruct (accepted (mode w) (raw w)) eqn:Hguards.
  - rewrite (click_analyze_accepted env w Hguards).
    destruct (backend env _); [| reflexivity].
    cbv zeta. destruct (storage_accepts _ _ _); reflexivity.
  - rewrite (click_analyze_not_accepted env w Hguards). now rewrite app_nil_r.
Qed.

(** C1, as stated, fails: in headers mode the one request of a click on
    the [spam1] sample has the field [raw] and no field [mode]. *)
Lemma analyze_request_has_no_mode_field :
  (fun q => (url q, keys (body q), optional_get (body q) (js "raw"), optional_get (body q) (js "mode")))
    <$> requests (snd (click_analyze documented_env (typed headers (sample "spam1")))) =
  [ (js "http://localhost:8000/analyze", [js "raw"], JString (sample "spam1"), JUndefined) ].
Proof. vm_compute. reflexivity. Qed.

(** C7, as the client has it. When the request fails, the click ends with
    no result, the history untouched and in [error]: the [detail] of the
    error response when that is truthy; "Analysis failed" when the
    response has no [detail] or a falsy one (an empty string, [null], 0,
    [false]); "Backend timeout or unreachable" when there is no response. *)
Theorem failed_request_message `{Platform} (env : Env) (w : World) (err : Exn) :
  accepted (mode w) (raw w) = true ->
  backend env (analyze_request (raw w)) = Rejected err ->
  click_analyze env w =
  (Normal tt,
   mkWorld (mode w) (raw w) false
           (match err with
            | AxiosError _ (Some data) =>
                if truthy (optional_get data (js "detail"))
                then optional_get data (js "detail")
                else JString (js "Analysis failed")
            | _ => JString (js "Backend timeout or unreachable")
            end)
           None (history w) (localStorage w) (console w)
           (requests w ++ [analyze_request (raw w)])).
Proof.
  intros Hguards Hanswer.
  rewrite (click_analyze_accepted env w Hguards), Hanswer. reflexivity.
Qed.

Lemma failed_request_message_witness :
  click_analyze (failing_env (JObject [(js "detail", JString (js "Input cannot be empty"))]))
    (typed content (sample "spam1")) =
  (Normal tt,
   mkWorld content (sample "spam1") false (JString (js "Input cannot be empty")) None [] ∅ []
           [analyze_request (sample "spam1")]).
Proof.
  apply (failed_request_message
           (failing_env (JObject [(js "detail", JString (js "Input cannot be empty"))]))
           (typed content (sample "spam1"))
           (AxiosError (js "Request failed with status code 400")
              (Some (JObject [(js "detail", JString (js "Input cannot be empty"))]))));
    reflexivity.
Defined.

(** C7, as stated, fails: an error response whose [detail] field is
    present and is the empty string ends with the generic message. *)
Lemma empty_detail_shows_generic_message :
  keys (JObject [(js "detail", JString [])]) = [js "detail"]
  /\ error (snd (click_analyze (failing_env (JObject [(js "detail", JString [])]))
                   (typed content (sample "spam1")))) =
     JString (js "Analysis failed").
Proof. split; vm_compute; reflexivity. Qed.

(** C8. After a successful analysis the history starts with the entry
    made of the fresh id, the current time, the category and the score of
    the response and the mode of the click; the client writes the list
    to [localStorage] under the storage key, and the request that went to
    the engine carries the text only.  (When the browser refuses the
    write, the entry is in the history all the same and the click ends
    with a message in [error].) *)
Theorem successful_analysis_records_entry `{Platform} (env : Env) (w : World)
    (data : AnalysisResponse.t) :
  accepted (mode w) (raw w) = true ->
  backend env (analyze_request (raw w)) = Fulfilled data ->
  let entry :=
    HistoryEntry.mk (randomUUID env) (now_toISOString env)
      (AnalysisResponse.category data) (AnalysisResponse.score data) (mode w) in
  let updated := entry :: take 19 (history w) in
  let sent :=
    requests w ++ [mkRequest (API_URL ++ js "/analyze") (JObject [(js "raw", JString (raw w))])] in
  click_analyze env w =
  (Normal tt,
   if storage_accepts (localStorage w) STORAGE_KEY (JSON_stringify updated)
   then mkWorld (mode w) (raw w) false JNull (Some data) updated
                (<[STORAGE_KEY := JSON_stringify updated]> (localStorage w)) (console w) sent
   else mkWorld (mode w) (raw w) false (JString (js "Backend timeout or unreachable"))
                (Some data) updated (localStorage w) (console w) sent).
Proof.
  intros Hguards Hanswer entry updated sent.
  rewrite (click_analyze_accepted env w Hguards), Hanswer. cbv zeta.
  change (take 20 (_ :: history w)) with updated.
  destruct (storage_accepts _ _ _); reflexivity.
Qed.

Lemma successful_analysis_records_entry_witness :
  click_analyze documented_env (typed headers (sample "spam1")) =
  (Normal tt,
   mkWorld headers (sample "spam1") false JNull (Some spam1_documented)
           [HistoryEntry.mk (js "3f0c1a52-9d1e-4c7b-8a57-0b6f2d9e4c11")
              (js "2024-01-01T00:00:00.000Z") LIKELY_SPAM 72 headers]
           (<[STORAGE_KEY := js "[...]"]> ∅) []
           [mkRequest (js "http://localhost:8000/analyze")
              (JObject [(js "raw", JString (sample "spam1"))])]).
Proof.
  exact (successful_analysis_records_entry documented_env (typed headers (sample "spam1"))
           spam1_documented eq_refl eq_refl).
Defined.

(** ** [useHistory] *)

(** C9. [addEntry] sets the history to the new entry followed by the
    first 19 of the entries it had, in their order, so that at most 20
    remain, and writes that list to [localStorage]; the history is set
    also when the browser refuses the write. *)
Theorem addEntry_bounded_newest_first `{Platform} (w : World) (entry : HistoryEntry.t) :
  let updated := entry :: take 19 (history w) in
  let w' := snd (addEntry (history w) entry w) in
  history w' = updated
  /\ length (history w') <= 20
  /\ history w' !! 0 = Some entry
  /\ drop 1 (history w') = take 19 (history w)
  /\ localStorage w' =
     (if storage_accepts (localStorage w) STORAGE_KEY (JSON_stringify updated)
      then <[STORAGE_KEY := JSON_stringify updated]> (localStorage w)
      else localStorage w).
Proof.
  intros updated w'.
  assert (Hhist : history w' = updated /\ localStorage w' =
     (if storage_accepts (localStorage w) STORAGE_KEY (JSON_stringify updated)
      then <[STORAGE_KEY := JSON_stringify updated]> (localStorage w)
      else localStorage w)).
  { subst w'. unfold addEntry, setHistory, localStorage_setItem, mbind, M_bind. cbn.
    change (take 20 (entry :: history w)) with updated.
    destruct (storage_accepts _ _ _); split; reflexivity. }
  destruct Hhist as [Hhist Hstore]. rewrite Hhist. repeat split; [| exact Hstore].
  subst updated. cbn [length]. rewrite length_take. lia.
Qed.

(** The effect of [useHistory] never throws. *)
Lemma useHistory_effect_completes `{Platform} (w : World) :
  fst (useHistory_effect w) = Normal tt.
Proof.
  unfold useHistory_effect, localStorage_getItem, when, try_catch, JSON_parse_call,
    mbind, M_bind, mret, M_ret, throw.
  destruct (localStorage w !! STORAGE_KEY) as [[| c s] |]; cbn; try reflexivity.
  destruct (JSON_parse (c :: s)); reflexivity.
Qed.

(** C10, as the hook has it. A stored value that is not empty and that
    [JSON.parse] rejects: the effect completes, one failure is logged, and
    the history is the empty list of the first render. *)
Theorem unparsable_history_is_logged `{Platform}
    (storage : gmap (list N) (list N)) (stored msg : jsstring) :
  storage !! STORAGE_KEY = Some stored ->
  stored <> [] ->
  JSON_parse stored = inl msg ->
  mount storage =
  (Normal tt,
   mkWorld content (sample "legit") false JNull None [] storage
           [(js "Failed to parse history", Error msg)] []).
Proof.
  intros Hstored Hne Hparse.
  unfold mount, useHistory_effect, localStorage_getItem, when, try_catch, JSON_parse_call,
    mbind, M_bind, mret, M_ret, throw.
  cbn. rewrite Hstored. destruct stored as [| c s]; [congruence |].
  cbn. rewrite Hparse. reflexivity.
Qed.

Lemma unparsable_history_is_logged_witness :
  mount (<[STORAGE_KEY := js "not json"]> ∅) =
  (Normal tt,
   mkWorld content (sample "legit") false JNull None [] (<[STORAGE_KEY := js "not json"]> ∅)
           [(js "Failed to parse history", Error (js "Unexpected token"))] []).
Proof.
  apply (unparsable_history_is_logged (<[STORAGE_KEY := js "not json"]> ∅)
           (js "not json") (js "Unexpected token")).
  - apply lookup_insert_eq.
  - discriminate.
  - reflexivity.
Defined.

(** C10, as stated, fails: the empty string is a stored value that
    [JSON.parse] rejects, and the effect skips it without logging. *)
Lemma empty_stored_history_is_not_logged :
  (<[STORAGE_KEY := []]> (∅ : gmap (list N) (list N))) !! STORAGE_KEY = Some []
  /\ JSON_parse [] = inl (js "Unexpected token")
  /\ mount (<[STORAGE_KEY := []]> ∅) =
     (Normal tt,
      mkWorld content (sample "legit") false JNull None [] (<[STORAGE_KEY := []]> ∅) [] []).
Proof.
  split; [apply lookup_insert_eq |]. split; [reflexivity |].
  unfold mount, useHistory_effect, localStorage_getItem, mbind, M_bind.
  cbn. rewrite lookup_insert_eq. reflexivity.
Qed.

(** ** More on [handleAnalyze] *)

Lemma in_class_not_trimmable c : in_class c = true -> is_trimmable c = false.
Proof.
  unfold in_class, is_word_char, is_trimmable, is_WhiteSpace, is_LineTerminator.
  rewrite !orb_true_iff, !andb_true_iff, !N.leb_le, !N.eqb_eq. intros Hc.
  apply not_true_is_false.
  rewrite !orb_true_iff, !andb_true_iff, !N.leb_le, !N.eqb_eq. lia.
Qed.

Lemma match_class_plus_colon_head s :
  match_class_plus_colon s = true -> exists c rest, s = c :: rest /\ in_class c = true.
Proof.
  destruct s as [| c rest]; cbn; [discriminate |].
  rewrite andb_true_iff. intros [Hc _]. eauto.
Qed.

Lemma regex_search_has_class_char bol s :
  regex_search bol s = true -> Exists (fun c => in_class c = true) s.
Proof.
  revert bol. induction s as [| c s IH]; intros bol; cbn [regex_search].
  - rewrite andb_false_r. discriminate.
  - rewrite orb_true_iff, andb_true_iff. intros [[_ Hm] | Hrest].
    + apply match_class_plus_colon_head in Hm as (d & rest & [= <- <-] & Hd).
      now apply Exists_cons_hd.
    + apply Exists_cons_tl. eauto.
Qed.

(** A text the header pattern accepts is not blank. *)
Lemma header_pattern_not_blank text :
  header_pattern_test text = true -> truthy (JString (trim text)) = true.
Proof.
  intros Hpat. destruct (trim text) as [| c t] eqn:Htrim; [| reflexivity].
  exfalso. apply trim_blank_iff in Htrim.
  apply regex_search_has_class_char in Hpat.
  apply Exists_exists in Hpat as (c & Hin & Hc).
  rewrite Forall_forall in Htrim. specialize (Htrim c Hin).
  rewrite (in_class_not_trimmable c Hc) in Htrim. discriminate.
Qed.

Lemma match_class_plus_colon_app s after :
  match_class_plus_colon s = true -> match_class_plus_colon (s ++ after) = true.
Proof.
  induction s as [| c s IH]; cbn; [discriminate |].
  rewrite !andb_true_iff, !orb_true_iff. intros [Hc [Hcolon | Hrest]]; split; try assumption.
  - left. destruct s; [discriminate | exact Hcolon].
  - right. auto.
Qed.

Lemma regex_search_app bol s after :
  regex_search bol s = true -> regex_search bol (s ++ after) = true.
Proof.
  revert bol. induction s as [| c s IH]; intros bol; cbn [regex_search app].
  - rewrite andb_false_r. discriminate.
  - rewrite !orb_true_iff, !andb_true_iff. intros [[Hbol Hm] | Hrest].
    + left. split; [assumption |]. now apply (match_class_plus_colon_app (c :: s)).
    + right. change (s ++ after) with (app s after). auto.
Qed.

Lemma regex_search_after_line bol before t s :
  is_LineTerminator t = true ->
  regex_search true s = true -> regex_search bol (before ++ t :: s) = true.
Proof.
  intros Ht Hs. revert bol. induction before as [| c before IH]; intros bol.
  - cbn [app regex_search]. rewrite Ht, Hs. apply orb_true_r.
  - cbn [app regex_search]. rewrite IH. apply orb_true_r.
Qed.

Lemma truthy_js_or a b : truthy b = true -> truthy (js_or a b) = true.
Proof.
  intros Hb. unfold js_or. destruct (truthy a) eqn:Ha; assumption.
Qed.

(** X1. A click never ends in an exception: whatever the server answers,
    and also when the browser refuses the write of the history, the run of
    [handleAnalyze] completes normally. *)
Theorem click_analyze_never_throws `{Platform} (env : Env) (w : World) :
  fst (click_analyze env w) = Normal tt.
Proof.
  destruct (accepted (mode w) (raw w)) eqn:Hguards.
  - rewrite (click_analyze_accepted env w Hguards).
    destruct (backend env _); [| reflexivity].
    cbv zeta. destruct (storage_accepts _ _ _); reflexivity.
  - unfold accepted in Hguards.
    destruct (truthy (JString (trim (raw w)))) eqn:Htext.
    + destruct (bool_decide (mode w = headers)) eqn:Hmode; [| discriminate].
      apply bool_decide_eq_true in Hmode.
      now rewrite (click_analyze_bad_headers env w Htext Hmode Hguards).
    + now rewrite (click_analyze_blank env w Htext).
Qed.

(** X2. In a browser that takes the write of the history, a click ends
    with either a result or an error message on display, never both and
    never neither. *)
Theorem click_shows_result_or_error `{Platform} (env : Env) (w : World) :
  (forall text, storage_accepts (localStorage w) STORAGE_KEY text = true) ->
  truthy (error (snd (click_analyze env w))) =
  match result (snd (click_analyze env w)) with
  | Some _ => false
  | None => true
  end.
Proof.
  intros Hwrite.
  destruct (accepted (mode w) (raw w)) eqn:Hguards.
  - rewrite (click_analyze_accepted env w Hguards).
    destruct (backend env _) as [data | err].
    + cbv zeta. now rewrite Hwrite.
    + cbn. destruct err as [m | m [data |]]; try reflexivity.
      now apply truthy_js_or.
  - unfold accepted in Hguards.
    destruct (truthy (JString (trim (raw w)))) eqn:Htext.
    + destruct (bool_decide (mode w = headers)) eqn:Hmode; [| discriminate].
      apply bool_decide_eq_true in Hmode.
      now rewrite (click_analyze_bad_headers env w Htext Hmode Hguards).
    + now rewrite (click_analyze_blank env w Htext).
Qed.

Lemma click_shows_result_or_error_witness :
  truthy (error (snd (click_analyze (failing_env (JObject [(js "detail", JNull)]))
                        (typed content (sample "spam2"))))) =
  match result (snd (click_analyze (failing_env (JObject [(js "detail", JNull)]))
                       (typed content (sample "spam2")))) with
  | Some _ => false
  | None => true
  end.
Proof.
  apply (click_shows_result_or_error (failing_env (JObject [(js "detail", JNull)]))
           (typed content (sample "spam2"))).
  intros text. reflexivity.
Defined.

(** X3. In headers mode the empty-input guard is subsumed: a click sends
    its request exactly when the header pattern accepts the text. *)
Theorem headers_click_sends_iff_pattern `{Platform} (env : Env) (w : World) :
  mode w = headers ->
  requests (snd (click_analyze env w)) =
  requests w ++ (if header_pattern_test (raw w) then [analyze_request (raw w)] else []).
Proof.
  intros Hmode.
  assert (Hguards : accepted (mode w) (raw w) = header_pattern_test (raw w)).
  { unfold accepted. rewrite Hmode, bool_decide_eq_true_2 by reflexivity.
    destruct (header_pattern_test (raw w)) eqn:Hpat; [| apply andb_false_r].
    now rewrite (header_pattern_not_blank _ Hpat). }
  destruct (header_pattern_test (raw w)).
  - rewrite (click_analyze_accepted env w Hguards).
    destruct (backend env _); [| reflexivity].
    cbv zeta. destruct (storage_accepts _ _ _); reflexivity.
  - rewrite (click_analyze_not_accepted env w Hguards). now rewrite app_nil_r.
Qed.

Lemma headers_click_sends_iff_pattern_witness :
  requests (snd (click_analyze unreachable_env
                   (typed headers (js "Received-SPF: pass" ++ LF ++ js "X-Mailer: none")))) =
  [analyze_request (js "Received-SPF: pass" ++ LF ++ js "X-Mailer: none")].
Proof.
  exact (headers_click_sends_iff_pattern unreachable_env
           (typed headers (js "Received-SPF: pass" ++ LF ++ js "X-Mailer: none")) eq_refl).
Defined.

(** X4. The header check only looks for one header line: a text it
    accepts stays accepted with any text after it, and with any lines
    before it. *)
Theorem header_pattern_stable (before text after : jsstring) (t : N) :
  header_pattern_test text = true ->
  is_LineTerminator t = true ->
  header_pattern_test (text ++ after) = true
  /\ header_pattern_test (before ++ t :: text ++ after) = true.
Proof.
  unfold header_pattern_test. intros Htext Ht.
  pose proof (regex_search_app true text after Htext) as Happ.
  split; [exact Happ |]. now apply regex_search_after_line.
Qed.

Lemma header_pattern_stable_witness :
  header_pattern_test (js "Subject: hi" ++ LF ++ LF ++ js "Hello, this is the body.") = true
  /\ header_pattern_test
       (js "Dear all," ++ 10%N :: js "Subject: hi" ++ LF ++ LF ++ js "Hello, this is the body.")
     = true.
Proof.
  apply (header_pattern_stable (js "Dear all,") (js "Subject: hi")
           (LF ++ LF ++ js "Hello, this is the body.") 10%N); reflexivity.
Defined.

(** ** More on [useHistory] *)

Lemma mount_unfold `{Platform} (storage : gmap (list N) (list N)) :
  mount storage =
  match storage !! STORAGE_KEY with
  | Some (c :: s) =>
      match JSON_parse (c :: s) with
      | inr v => (Normal tt, mkWorld content (sample "legit") false JNull None v storage [] [])
      | inl msg =>
          (Normal tt,
           mkWorld content (sample "legit") false JNull None [] storage
                   [(js "Failed to parse history", Error msg)] [])
      end
  | _ => (Normal tt, initial storage)
  end.
Proof.
  unfold mount, useHistory_effect, localStorage_getItem, when, try_catch, JSON_parse_call,
    setHistory, console_error, mbind, M_bind, mret, M_ret, throw.
  cbn. destruct (storage !! STORAGE_KEY) as [[| c s] |]; cbn; try reflexivity.
  destruct (JSON_parse (c :: s)); reflexivity.
Qed.

(** X5. Loading the history only reads.  For a stored value of the
    kinds the state is declared for (nothing stored, an empty text, a
    text that [JSON.parse] rejects, the JSON text of a list of history
    entries) the effect completes, [localStorage] is as it was and no
    request is sent; the history is the list the stored text parses to,
    whatever its length, and the empty list in the other three cases.
    (A stored text that parses to another JSON value, [null] say, is
    outside the declared type and outside this model.) *)
Theorem mount_only_reads `{Platform} (storage : gmap (list N) (list N)) :
  fst (mount storage) = Normal tt
  /\ localStorage (snd (mount storage)) = storage
  /\ requests (snd (mount storage)) = []
  /\ history (snd (mount storage)) =
     match storage !! STORAGE_KEY with
     | Some stored =>
         match JSON_parse stored with
         | inr parsed => if truthy (JString stored) then parsed else []
         | inl _ => []
         end
     | None => []
     end.
Proof.
  rewrite mount_unfold.
  destruct (storage !! STORAGE_KEY) as [[| c s] |]; cbn.
  - repeat split. destruct (JSON_parse []); reflexivity.
  - destruct (JSON_parse (c :: s)); repeat split.
  - repeat split.
Qed.

(** X6. The history survives a reload: when the browser takes the write
    and [JSON.parse] reads back what [JSON.stringify] wrote, the page
    mounted on the storage that [addEntry] left shows the history that
    [addEntry] set, and logs nothing. *)
Theorem history_survives_reload `{Platform} (w : World) (entry : HistoryEntry.t) :
  let updated := entry :: take 19 (history w) in
  storage_accepts (localStorage w) STORAGE_KEY (JSON_stringify updated) = true ->
  JSON_stringify updated <> [] ->
  JSON_parse (JSON_stringify updated) = inr updated ->
  history (snd (mount (localStorage (snd (addEntry (history w) entry w))))) = updated
  /\ console (snd (mount (localStorage (snd (addEntry (history w) entry w))))) = [].
Proof.
  intros updated Hwrite Htext Hparse.
  assert (Hstore : localStorage (snd (addEntry (history w) entry w)) =
                   <[STORAGE_KEY := JSON_stringify updated]> (localStorage w)).
  { unfold addEntry, setHistory, localStorage_setItem, mbind, M_bind. cbn.
    change (take 20 (entry :: history w)) with updated. now rewrite Hwrite. }
  rewrite Hstore, mount_unfold, lookup_insert_eq.
  destruct (JSON_stringify updated) as [| c s] eqn:Hs; [congruence |].
  rewrite Hparse. split; reflexivity.
Qed.

Lemma history_survives_reload_witness :
  history (snd (mount (H := codec_platform)
                  (localStorage (snd (addEntry (H := codec_platform) [entry_a] entry_b
                                        (mkWorld content [] false JNull None [entry_a] ∅ [] []))))))
  = [entry_b; entry_a]
  /\ console (snd (mount (H := codec_platform)
                     (localStorage (snd (addEntry (H := codec_platform) [entry_a] entry_b
                                           (mkWorld content [] false JNull None [entry_a] ∅ [] []))))))
     = [].
Proof.
  apply (history_survives_reload (H := codec_platform)
           (mkWorld content [] false JNull None [entry_a] ∅ [] []) entry_b).
  - reflexivity.
  - discriminate.
  - vm_compute. reflexivity.
Defined.

(** ** [handleAnalyze] around its [await] *)

Ltac run_async :=
  unfold handleAnalyze_until_await, handleAnalyze_after_await, call, addEntry, axios_post_send,
    await_post, try_catch_finally, try_catch, when, return_, throw, setError, setResult,
    setLoading, setHistory, localStorage_setItem, mbind, M_bind, mret, M_ret.

(** The two halves agree with the handler in one piece: the part up to
    the [await] followed by the part after it, resumed with the answer of
    the server to the request, is [handleAnalyze]. *)
Lemma handleAnalyze_splits_at_await `{Platform} (env : Env) (m : Mode) (text : jsstring)
    (add : HistoryEntry.t -> M unit) (w : World) :
  handleAnalyze env m text add w =
  (handleAnalyze_until_await m text;;
   handleAnalyze_after_await env m add (backend env (analyze_request text))) w.
Proof.
  unfold handleAnalyze, axios_post, analyze_request. run_async.
  destruct (truthy (JString (trim text))); [| reflexivity].
  destruct (bool_decide (m = headers)); cbn;
    [destruct (header_pattern_test text); cbn; [| reflexivity] |];
    destruct (backend env _); reflexivity.
Qed.

Lemma until_await_unfold `{Platform} (m : Mode) (text : jsstring) (w : World) :
  handleAnalyze_until_await m text w =
  if accepted m text
  then (Normal tt,
        mkWorld (mode w) (raw w) true JNull None (history w) (localStorage w) (console w)
                (requests w ++ [analyze_request text]))
  else (Return,
        mkWorld (mode w) (raw w) (loading w)
                (JString (if truthy (JString (trim text))
                          then js "Invalid header format"
                          else js "Input cannot be empty"))
                None (history w) (localStorage w) (console w) (requests w)).
Proof.
  unfold accepted, analyze_request. run_async.
  destruct (truthy (JString (trim text))); [| reflexivity].
  destruct (bool_decide (m = headers)); cbn; [| reflexivity].
  destruct (header_pattern_test text); reflexivity.
Qed.

Lemma after_await_unfold `{Platform} (env : Env) (m : Mode) (h : list HistoryEntry.t)
    (settled : PostOutcome) (w : World) :
  call (handleAnalyze_after_await env m (addEntry h) settled) w =
  (Normal tt,
   match settled with
   | Fulfilled data =>
       let updated :=
         take 20 (HistoryEntry.mk (randomUUID env) (now_toISOString env)
                    (AnalysisResponse.category data) (AnalysisResponse.score data) m :: h) in
       if storage_accepts (localStorage w) STORAGE_KEY (JSON_stringify updated)
       then mkWorld (mode w) (raw w) false (error w) (Some data) updated
                    (<[STORAGE_KEY := JSON_stringify updated]> (localStorage w))
                    (console w) (requests w)
       else mkWorld (mode w) (raw w) false (JString (js "Backend timeout or unreachable"))
                    (Some data) updated (localStorage w) (console w) (requests w)
   | Rejected err =>
       mkWorld (mode w) (raw w) false
               (match err with
                | AxiosError _ (Some data) =>
                    js_or (optional_get data (js "detail")) (JString (js "Analysis failed"))
                | _ => JString (js "Backend timeout or unreachable")
                end)
               (result w) (history w) (localStorage w) (console w) (requests w)
   end).
Proof.
  run_async. destruct settled as [data | [msg | msg [data |]]]; cbn; try reflexivity.
  destruct (storage_accepts _ _ _); reflexivity.
Qed.

Lemma step_settle `{Platform} (s : Session) (env : Env) (p : Pending) :
  in_flight s = Some p ->
  step s (Settle env) =
  mkSession (snd (call (handleAnalyze_after_await env (click_mode p)
                          (addEntry (click_history p))
                          (backend env (click_request p))) (world s))) None.
Proof. intros Hp. cbn. now rewrite Hp. Qed.

Lemma run_cons `{Platform} (e : Event) (events : list Event) (s : Session) :
  run (e :: events) s = run events (step s e).
Proof. reflexivity. Qed.

Lemma run_app `{Platform} (events events' : list Event) (s : Session) :
  run (events ++ events') s = run events' (run events s).
Proof. apply foldl_app. Qed.

(** One event keeps: [loading] says whether a run is in flight, and the
    history that run holds on to is the current one. *)
Lemma step_keeps_in_flight `{Platform} (s : Session) (e : Event) :
  loading (world s) = bool_decide (is_Some (in_flight s)) ->
  from_option click_history (history (world s)) (in_flight s) = history (world s) ->
  loading (world (step s e)) = bool_decide (is_Some (in_flight (step s e)))
  /\ from_option click_history (history (world (step s e))) (in_flight (step s e))
     = history (world (step s e)).
Proof.
  intros Hload Hhist. destruct e as [| env | m | text].
  - cbn [step]. destruct (loading (world s)) eqn:Hl; [split; congruence |].
    rewrite until_await_unfold.
    destruct (accepted _ _); cbn; [now split |].
    rewrite Hl. split; congruence.
  - destruct (in_flight s) as [p |] eqn:Hp.
    + rewrite (step_settle s env p Hp), after_await_unfold. cbn.
      destruct (backend env _); cbn; [| now split].
      destruct (storage_accepts _ _ _); now split.
    + cbn [step]. rewrite !Hp. now split.
  - now split.
  - now split.
Qed.

Lemma run_keeps_in_flight `{Platform} (events : list Event) (s : Session) :
  loading (world s) = bool_decide (is_Some (in_flight s)) ->
  from_option click_history (history (world s)) (in_flight s) = history (world s) ->
  loading (world (run events s)) = bool_decide (is_Some (in_flight (run events s)))
  /\ from_option click_history (history (world (run events s))) (in_flight (run events s))
     = history (world (run events s)).
Proof.
  revert s. induction events as [| e events IH]; intros s Hload Hhist; [now split |].
  rewrite run_cons. destruct (step_keeps_in_flight s e Hload Hhist) as [Hload' Hhist'].
  now apply IH.
Qed.

(** X8. Whatever the user does on a page that starts idle, the button is
    disabled ([loading]) exactly while a run of [handleAnalyze] is in
    flight, a click in that time changes nothing, so that a second request
    cannot leave before the first is answered, and the history that the
    suspended run will extend is the one on the page. *)
Theorem one_request_in_flight `{Platform} (events : list Event) (w : World) :
  loading w = false ->
  let s := run events (mkSession w None) in
  (loading (world s) = true <-> is_Some (in_flight s))
  /\ (loading (world s) = true -> step s ClickAnalyze = s)
  /\ from_option click_history (history (world s)) (in_flight s) = history (world s).
Proof.
  intros Hidle s.
  destruct (run_keeps_in_flight events (mkSession w None)) as [Hload Hhist];
    [exact Hidle | reflexivity |].
  fold s in Hload, Hhist. split; [| split; [| exact Hhist]].
  - rewrite Hload. apply bool_decide_eq_true.
  - intros Hl. cbn [step]. now rewrite Hl.
Qed.

Lemma one_request_in_flight_witness :
  let s := run [ClickAnalyze; ChangeRaw (sample "spam2"); ClickAnalyze; ClickMode headers]
               (mkSession (typed content (sample "spam1")) None) in
  (loading (world s) = true <-> is_Some (in_flight s))
  /\ (loading (world s) = true -> step s ClickAnalyze = s)
  /\ from_option click_history (history (world s)) (in_flight s) = history (world s).
Proof.
  exact (one_request_in_flight
           [ClickAnalyze; ChangeRaw (sample "spam2"); ClickAnalyze; ClickMode headers]
           (typed content (sample "spam1")) eq_refl).
Defined.

Lemma step_edit_in_flight `{Platform} (e : Event) (p : Pending) m t er re hi st co rq :
  is_settlement e = false ->
  exists m' t',
    step (mkSession (mkWorld m t true er re hi st co rq) (Some p)) e =
    mkSession (mkWorld m' t' true er re hi st co rq) (Some p).
Proof.
  destruct e as [| env | m' | t']; intros He; [| discriminate | |]; eauto.
Qed.

Lemma run_edits_in_flight `{Platform} (edits : list Event) (p : Pending) er re hi st co rq :
  Forall (fun e => is_settlement e = false) edits ->
  forall m t, exists m' t',
    run edits (mkSession (mkWorld m t true er re hi st co rq) (Some p)) =
    mkSession (mkWorld m' t' true er re hi st co rq) (Some p).
Proof.
  induction 1 as [| e edits He _ IH]; intros m t; [eauto |].
  destruct (step_edit_in_flight e p m t er re hi st co rq He) as (m1 & t1 & Hstep).
  rewrite run_cons, Hstep. apply IH.
Qed.

(** X9. What the user does between the click and the answer does not
    reach the entry: switching mode, changing the text and clicking again
    while the request is in flight leave the answer to be recorded with
    the mode of the click, in front of the history of the click, and
    stored; one request was sent, with the text of the click. *)
Theorem edits_in_flight_do_not_reach_entry `{Platform} (w : World) (edits : list Event)
    (env : Env) (data : AnalysisResponse.t) :
  loading w = false ->
  accepted (mode w) (raw w) = true ->
  Forall (fun e => is_settlement e = false) edits ->
  backend env (analyze_request (raw w)) = Fulfilled data ->
  let updated :=
    HistoryEntry.mk (randomUUID env) (now_toISOString env)
      (AnalysisResponse.category data) (AnalysisResponse.score data) (mode w)
    :: take 19 (history w) in
  storage_accepts (localStorage w) STORAGE_KEY (JSON_stringify updated) = true ->
  let s := run (ClickAnalyze :: edits ++ [Settle env]) (mkSession w None) in
  in_flight s = None
  /\ loading (world s) = false
  /\ error (world s) = JNull
  /\ result (world s) = Some data
  /\ history (world s) = updated
  /\ localStorage (world s) = <[STORAGE_KEY := JSON_stringify updated]> (localStorage w)
  /\ requests (world s) = requests w ++ [analyze_request (raw w)].
Proof.
  intros Hidle Hguards Hedits Hanswer updated Hwrite s. subst s.
  rewrite run_cons. cbn [step world]. rewrite Hidle, until_await_unfold, Hguards.
  rewrite run_app.
  destruct (run_edits_in_flight edits
              (mkPending (mode w) (history w) (analyze_request (raw w)))
              JNull None (history w) (localStorage w) (console w)
              (requests w ++ [analyze_request (raw w)]) Hedits (mode w) (raw w))
    as (m' & t' & ->).
  cbn [run foldl].
  rewrite step_settle
    with (p := mkPending (mode w) (history w) (analyze_request (raw w))) by reflexivity.
  rewrite after_await_unfold.
  cbn [click_request click_mode click_history world localStorage]. rewrite Hanswer. cbv zeta.
  change (take 20 (_ :: history w)) with updated. rewrite Hwrite.
  repeat split.
Qed.

Lemma edits_in_flight_do_not_reach_entry_witness :
  let s := run [ClickAnalyze; ClickMode headers; ChangeRaw (js "something else");
                ClickAnalyze; Settle documented_env]
               (mkSession (typed content (sample "spam1")) None) in
  in_flight s = None
  /\ loading (world s) = false
  /\ error (world s) = JNull
  /\ result (world s) = Some spam1_documented
  /\ history (world s) =
     [HistoryEntry.mk (js "3f0c1a52-9d1e-4c7b-8a57-0b6f2d9e4c11")
        (js "2024-01-01T00:00:00.000Z") LIKELY_SPAM 72 content]
  /\ localStorage (world s) = <[STORAGE_KEY := js "[...]"]> ∅
  /\ requests (world s) = [analyze_request (sample "spam1")].
Proof.
  exact (edits_in_flight_do_not_reach_entry (typed content (sample "spam1"))
           [ClickMode headers; ChangeRaw (js "something else"); ClickAnalyze]
           documented_env spam1_documented eq_refl eq_refl
           ltac:(repeat constructor) eq_refl eq_refl).
Defined.

Lemma step_history `{Platform} (s : Session) (e : Event) :
  history (world (step s e)) = history (world s)
  \/ exists env data p,
       e = Settle env /\ in_flight s = Some p
       /\ backend env (click_request p) = Fulfilled data
       /\ history (world (step s e)) =
          take 20 (HistoryEntry.mk (randomUUID env) (now_toISOString env)
                     (AnalysisResponse.category data) (AnalysisResponse.score data)
                     (click_mode p) :: click_history p)
       /\ localStorage (world (step s e)) =
          (if storage_accepts (localStorage (world s)) STORAGE_KEY
                (JSON_stringify (history (world (step s e))))
           then <[STORAGE_KEY := JSON_stringify (history (world (step s e)))]>
                  (localStorage (world s))
           else localStorage (world s)).
Proof.
  destruct e as [| env | m | text]; try (left; reflexivity).
  - left. cbn [step]. destruct (loading (world s)); [reflexivity |].
    rewrite until_await_unfold. destruct (accepted _ _); reflexivity.
  - destruct (in_flight s) as [p |] eqn:Hp; [| left; cbn [step]; now rewrite Hp].
    rewrite (step_settle s env p Hp), after_await_unfold. cbn [world].
    destruct (backend env (click_request p)) as [data | err] eqn:Hanswer; [| left; reflexivity].
    right. exists env, data, p. cbv zeta.
    set (updated := take 20 _).
    destruct (storage_accepts _ _ _) eqn:Hwrite; cbn [history localStorage snd];
      rewrite Hwrite; repeat split; solve [reflexivity | assumption].
Qed.

Lemma step_storage `{Platform} (s : Session) (e : Event) :
  localStorage (world (step s e)) = localStorage (world s)
  \/ localStorage (world (step s e)) !! STORAGE_KEY
     = Some (JSON_stringify (history (world (step s e)))).
Proof.
  destruct e as [| env | m | text]; try (left; reflexivity).
  - left. cbn [step]. destruct (loading (world s)); [reflexivity |].
    rewrite until_await_unfold. destruct (accepted _ _); reflexivity.
  - destruct (in_flight s) as [p |] eqn:Hp; [| left; cbn [step]; now rewrite Hp].
    rewrite (step_settle s env p Hp), after_await_unfold. cbn [world].
    destruct (backend env (click_request p)) as [data | err]; [| left; reflexivity].
    cbv zeta. destruct (storage_accepts _ _ _); [right | left; reflexivity].
    cbn [history localStorage]. apply lookup_insert_eq.
Qed.

(** X10. The bound of the history is kept along every run of the page: a
    history of at most 20 entries stays one, whatever is clicked, typed
    and answered. *)
Theorem history_stays_bounded `{Platform} (events : list Event) (s : Session) :
  length (history (world s)) <= 20 ->
  length (history (world (run events s))) <= 20.
Proof.
  revert s. induction events as [| e events IH]; intros s Hbound; [exact Hbound |].
  rewrite run_cons. apply IH.
  destruct (step_history s e) as [-> | (env & data & p & _ & _ & _ & -> & _)]; [exact Hbound |].
  rewrite length_take. lia.
Qed.

Lemma history_stays_bounded_witness :
  length (history (world (run [ClickAnalyze; Settle documented_env; ClickAnalyze;
                               Settle documented_env]
                              (mkSession (typed content (sample "spam1")) None)))) <= 20.
Proof.
  apply (history_stays_bounded
           [ClickAnalyze; Settle documented_env; ClickAnalyze; Settle documented_env]
           (mkSession (typed content (sample "spam1")) None)).
  cbn. lia.
Defined.

(** X11. In a browser that takes every write of the history, what is
    stored is what is shown: along every run of the page, from a state
    where the history is empty or is the list whose JSON text is stored,
    the stored text is the JSON text of the history whenever the history
    is not empty. *)
Theorem storage_mirrors_history `{Platform} (events : list Event) (s : Session) :
  (forall storage text, storage_accepts storage STORAGE_KEY text = true) ->
  history (world s) = []
  \/ localStorage (world s) !! STORAGE_KEY = Some (JSON_stringify (history (world s))) ->
  history (world (run events s)) = []
  \/ localStorage (world (run events s)) !! STORAGE_KEY
     = Some (JSON_stringify (history (world (run events s)))).
Proof.
  intros Hwrite. revert s. induction events as [| e events IH]; intros s Hsync; [exact Hsync |].
  rewrite run_cons. apply IH.
  destruct (step_history s e) as [Hsame | (env & data & p & _ & _ & _ & _ & Hstore)].
  - destruct (step_storage s e) as [Hstore | Hstore].
    + rewrite Hsame, Hstore. exact Hsync.
    + right. exact Hstore.
  - right. rewrite Hstore, Hwrite. apply lookup_insert_eq.
Qed.

Lemma storage_mirrors_history_witness :
  history (world (run (H := codec_platform)
                    [ClickAnalyze; Settle documented_env; ClickMode headers; ClickAnalyze;
                     Settle unreachable_env]
                    (mkSession (typed content (sample "spam1")) None))) = []
  \/ localStorage (world (run (H := codec_platform)
                            [ClickAnalyze; Settle documented_env; ClickMode headers;
                             ClickAnalyze; Settle unreachable_env]
                            (mkSession (typed content (sample "spam1")) None)))
       !! STORAGE_KEY
     = Some (JSON_stringify (Platform := codec_platform)
               (history (world (run (H := codec_platform)
                                  [ClickAnalyze; Settle documented_env; ClickMode headers;
                                   ClickAnalyze; Settle unreachable_env]
                                  (mkSession (typed content (sample "spam1")) None))))).
Proof.
  apply (storage_mirrors_history (H := codec_platform)
           [ClickAnalyze; Settle documented_env; ClickMode headers; ClickAnalyze;
            Settle unreachable_env]
           (mkSession (typed content (sample "spam1")) None)).
  - intros storage text. reflexivity.
  - left. reflexivity.
Defined.

(** The page agrees with the click in one piece: on an idle page, the
    click followed by the settlement of its request leaves the state that
    [click_analyze] leaves, with nothing in flight. *)
Lemma click_then_answer_is_whole_click `{Platform} (env : Env) (w : World) :
  loading w = false ->
  run [ClickAnalyze; Settle env] (mkSession w None) =
  mkSession (snd (click_analyze env w)) None.
Proof.
  intros Hidle. cbn [run foldl step world]. rewrite Hidle, until_await_unfold.
  destruct (accepted (mode w) (raw w)) eqn:Hguards.
  - cbn [in_flight world click_mode click_history click_request].
    rewrite after_await_unfold, (click_analyze_accepted env w Hguards).
    cbn [mode raw error result history localStorage console requests].
    destruct (backend env _); [| reflexivity].
    cbv zeta. destruct (storage_accepts _ _ _); reflexivity.
  - cbn [in_flight]. f_equal.
    unfold accepted in Hguards.
    destruct (truthy (JString (trim (raw w)))) eqn:Htext.
    + destruct (bool_decide (mode w = headers)) eqn:Hmode; [| discriminate].
      apply bool_decide_eq_true in Hmode.
      rewrite (click_analyze_bad_headers env w Htext Hmode Hguards). cbn. now rewrite Hidle.
    + rewrite (click_analyze_blank env w Htext). cbn. now rewrite Hidle.
Qed.

(** ** The theme *)

Set Warnings "-clear-no-such-hyp".

(** X13. The class list of the root element mirrors the theme: after the
    first render and any number of clicks on the theme button, the class
    [dark] is set exactly when the theme is dark, the theme is dark
    exactly after an odd number of clicks, and no other class was touched,
    whatever the class list was before. *)
Theorem theme_class_mirrors_theme (clicks : nat) (classes : gset (list N)) :
  let page := Nat.iter clicks theme_click (theme_mount classes) in
  (js "dark" ∈ snd page <-> fst page = dark)
  /\ fst page = (if Nat.even clicks then light else dark)
  /\ snd page ∖ {[ js "dark" ]} = classes ∖ {[ js "dark" ]}.
Proof.
  induction clicks as [| n IH]; cbv zeta in *.
  - cbn. unfold theme_effect, classList_toggle. cbn.
    split; [| split; [reflexivity | set_solver]]. split; [set_solver | discriminate].
  - rewrite Nat.iter_succ, Nat.even_succ, <- Nat.negb_even.
    destruct IH as (Hdark & Htheme & Hrest).
    destruct (Nat.iter n theme_click (theme_mount classes)) as [theme cl].
    cbn [fst snd] in *. unfold theme_click, toggle_theme, theme_effect, classList_toggle.
    cbn [fst snd]. rewrite Htheme. destruct (Nat.even n); cbn.
    + split; [| split; [reflexivity | set_solver]]. split; [reflexivity | set_solver].
    + split; [| split; [reflexivity | set_solver]]. split; [set_solver | discriminate].
Qed.
